(** * Antigravity account switcher

    A shallow embedding of the two programs of the repository:

    - [scripts/profile_manager.ps1] (PowerShell): the profile store
      (Save / Load / List / Delete over directories below
      [%APPDATA%\Antigravity]);
    - [extension.js] (JavaScript): the rate-limit detector (pattern list,
      cooldown, log tail) and the command handlers that call the script
      and maintain [active_profile.txt].

    Modelling conventions.
    - Text is a [string] of 8-bit characters; [toLowerCase] folds the
      letters A-Z, which is what JavaScript does on ASCII text.
    - JavaScript numbers (clock readings, file sizes) are integers [Z].
    - A PowerShell function that ends in [exit 1] is a computation that
      returns an error and the state reached so far.
    - File-system calls succeed: paths are within the length limits, no
      file is locked, the disk has room, and [Profiles] holds nothing but
      profile directories.  The script creates the [Profiles]
      directory when it is missing before it looks at its action (lines
      118-121 of the script); the store of the model is the map of the
      sub-directories of [Profiles], so a missing directory and an empty
      one are the same store.
    - A profile name is taken as one directory entry, compared and looked
      up with the letters A-Z folded, and handed from the extension to the
      script as typed.  That is what the two programs do with plain names
      (module [Plain]: ASCII letters and digits, no device name).  For
      other names PowerShell reads patterns and paths, [cmd.exe] reads
      quotes and percent signs, and [-eq], NTFS and JavaScript fold more
      letters; the definitions below do not follow the programs there,
      and the properties of the store and of the command handlers are
      stated for plain names.
    - The extension reads the output of the script as text; here it gets
      the values the script printed.  What the user picks or types is an
      argument of the handler.  The rendering of the status bar
      ([updateProfileButtons]) reads the state and is left out.
    - The world carries a trace of the actions taken on the file system
      and on the host process, so that "nothing was done" and "before"
      can be stated. *)

From Stdlib Require Import ZArith Ascii Bool Lia Sorted.
From Stdlib Require String.
From stdpp Require Import gmap strings list.

Local Open Scope Z_scope.

(** ** Text: the string operations the two programs use *)

Module Text.

(** Code units 65..90 are the letters A..Z. *)
Definition is_upper (c : ascii) : bool :=
  let n := nat_of_ascii c in (65 <=? n)%nat && (n <=? 90)%nat.

Definition lower_ascii (c : ascii) : ascii :=
  if is_upper c then ascii_of_nat (nat_of_ascii c + 32) else c.

(** [String.prototype.toLowerCase]. *)
Fixpoint toLowerCase (s : string) : string :=
  match s with
  | EmptyString => EmptyString
  | String c r => String (lower_ascii c) (toLowerCase r)
  end.

(** [String.prototype.includes]: [pat] starts at some position of [s]. *)
Fixpoint includes (s pat : string) : bool :=
  String.prefix pat s ||
  match s with
  | EmptyString => false
  | String _ r => includes r pat
  end.

(** [Array.prototype.some]. *)
Definition some {A : Type} (f : A -> bool) (l : list A) : bool := existsb f l.

(** [mid] occurs in [text] as a contiguous run of characters. *)
Definition occurs (mid text : string) : Prop :=
  exists pre post, text = pre +:+ mid +:+ post.

(** Two characters are the same letter when they are equal or one is the
    capital of the other. *)
Definition same_letter (a b : ascii) : Prop :=
  a = b \/ (is_upper a = true /\ b = lower_ascii a)
        \/ (is_upper b = true /\ a = lower_ascii b).

(** Equality of strings ignoring case, character by character. *)
Inductive equal_ignoring_case : string -> string -> Prop :=
| eic_nil : equal_ignoring_case EmptyString EmptyString
| eic_cons a b s t :
    same_letter a b -> equal_ignoring_case s t ->
    equal_ignoring_case (String a s) (String b t).

(** A keyword occurs in a text ignoring case when some run of the text
    equals it ignoring case. *)
Definition occurs_ignoring_case (kw text : string) : Prop :=
  exists mid, occurs mid text /\ equal_ignoring_case mid kw.

(** PowerShell [-eq] on strings, and the lookup of a name in a Windows
    directory: both disregard letter case.  This fold is theirs on ASCII
    names. *)
Definition fold_name (s : string) : string := toLowerCase s.

End Text.

(** ** Detector: pattern list and cooldown of [extension.js] *)

Module Detector.
Import Text.

Definition RATE_LIMIT_PATTERNS : list string :=
  [ "rate limit"; "quota exceeded"; "too many requests"; "limit reached";
    "resource exhausted"; "429"; "RESOURCE_EXHAUSTED";
    "overloaded"; "capacity"; "rate_limit_error"; "overloaded_error";
    "api_error"; "Request limit"; "usage limit";
    "model is currently overloaded"; "temporarily unavailable" ].

Definition containsRateLimitError (text : string) : bool :=
  let lowerText := toLowerCase text in
  some (fun pattern => includes lowerText (toLowerCase pattern))
       RATE_LIMIT_PATTERNS.

Definition RATE_LIMIT_COOLDOWN : Z := 60000.

(** [let lastRateLimitAlert = 0;] *)
Definition lastRateLimitAlert_initial : Z := 0.

(** The first lines of [handleRateLimitDetected]: with [now = Date.now()],
    return early while in cooldown, otherwise record [now] and go on.
    The result pairs "went on" with the new [lastRateLimitAlert]. *)
Definition cooldown_gate (now lastRateLimitAlert : Z) : bool * Z :=
  if now - lastRateLimitAlert <? RATE_LIMIT_COOLDOWN
  then (false, lastRateLimitAlert)
  else (true, now).

(** Successive calls at the given clock readings. *)
Fixpoint gate_run (nows : list Z) (lastRateLimitAlert : Z) : list bool :=
  match nows with
  | [] => []
  | now :: rest =>
      let '(fired, last') := cooldown_gate now lastRateLimitAlert in
      fired :: gate_run rest last'
  end.

End Detector.

(** ** The data directory [%APPDATA%\Antigravity] and the host process *)

Module Disk.
Import Text.

(** A directory tree, flattened: relative path and bytes of each file. *)
Definition DirTree : Type := list (string * string).

Definition tree_bytes (t : DirTree) : nat :=
  foldr (fun f acc => (String.length f.2 + acc)%nat) 0%nat t.

(** One sub-directory of [Profiles]: its name as written on disk, its
    creation time, and what it holds. *)
Record Entry := {
  dirName : string;
  CreationTime : Z;
  contents : DirTree
}.

(** What the script and the extension do to the outside world, in order. *)
Inductive Event :=
| StopProcess
| StartSleep (seconds : Z)
| RemoveBackup
| RenameUserToBackup
| RemoveProfileDir (name : string)
| CopyUserToProfile (name : string)
| CopyProfileToUser (name : string)
| StartCleanupJob
| StartProcess (exe : string)
| WriteActiveProfile (name : string).

Record World := {
  Profiles : gmap string Entry;          (* Profiles\<name>, by folded name *)
  User : option DirTree;                 (* the live session directory *)
  User_switching_backup : option DirTree;
  active_profile_txt : option string;    (* active_profile.txt *)
  exe_in_LocalAppData : bool;
  exe_in_ProgramFiles : bool;
  running : nat;                         (* Antigravity processes alive *)
  trace : list Event
}.

Definition with_Profiles (p : gmap string Entry) (w : World) : World :=
  {| Profiles := p; User := User w;
     User_switching_backup := User_switching_backup w;
     active_profile_txt := active_profile_txt w;
     exe_in_LocalAppData := exe_in_LocalAppData w;
     exe_in_ProgramFiles := exe_in_ProgramFiles w;
     running := running w; trace := trace w |}.

Definition with_User (u : option DirTree) (w : World) : World :=
  {| Profiles := Profiles w; User := u;
     User_switching_backup := User_switching_backup w;
     active_profile_txt := active_profile_txt w;
     exe_in_LocalAppData := exe_in_LocalAppData w;
     exe_in_ProgramFiles := exe_in_ProgramFiles w;
     running := running w; trace := trace w |}.

Definition with_backup (b : option DirTree) (w : World) : World :=
  {| Profiles := Profiles w; User := User w;
     User_switching_backup := b;
     active_profile_txt := active_profile_txt w;
     exe_in_LocalAppData := exe_in_LocalAppData w;
     exe_in_ProgramFiles := exe_in_ProgramFiles w;
     running := running w; trace := trace w |}.

Definition with_active (a : option string) (w : World) : World :=
  {| Profiles := Profiles w; User := User w;
     User_switching_backup := User_switching_backup w;
     active_profile_txt := a;
     exe_in_LocalAppData := exe_in_LocalAppData w;
     exe_in_ProgramFiles := exe_in_ProgramFiles w;
     running := running w; trace := trace w |}.

Definition with_running (n : nat) (w : World) : World :=
  {| Profiles := Profiles w; User := User w;
     User_switching_backup := User_switching_backup w;
     active_profile_txt := active_profile_txt w;
     exe_in_LocalAppData := exe_in_LocalAppData w;
     exe_in_ProgramFiles := exe_in_ProgramFiles w;
     running := n; trace := trace w |}.

Definition emit (e : Event) (w : World) : World :=
  {| Profiles := Profiles w; User := User w;
     User_switching_backup := User_switching_backup w;
     active_profile_txt := active_profile_txt w;
     exe_in_LocalAppData := exe_in_LocalAppData w;
     exe_in_ProgramFiles := exe_in_ProgramFiles w;
     running := running w; trace := trace w ++ [e] |}.

(** [Test-Path (Join-Path $ProfilesStorePath $Name)], for a [$Name] that
    PowerShell reads as one literal path component. *)
Definition profile_dir (Name : string) (w : World) : option Entry :=
  Profiles w !! fold_name Name.

(** The store as the file system keeps it: every directory is filed under
    its folded name, and its name is not empty and has none of the
    characters Windows forbids in a file name. *)
Definition reserved (c : ascii) : bool :=
  match c with
  | "\"%char | "/"%char | ":"%char | "*"%char | "?"%char
  | "034"%char | "<"%char | ">"%char | "|"%char => true
  | _ => false
  end.

Fixpoint has_reserved (s : string) : bool :=
  match s with
  | EmptyString => false
  | String c r => reserved c || has_reserved r
  end.

Definition store_ok (p : gmap string Entry) : Prop :=
  forall k e, p !! k = Some e ->
    k = fold_name (dirName e) /\ dirName e <> EmptyString /\
    has_reserved (dirName e) = false.

End Disk.

(** ** [scripts/profile_manager.ps1] *)

Module ProfileManager.
Import Text Disk.

(** The messages of the script's [Write-Error ...; exit 1] exits. *)
Inductive Error :=
| NameRequired        (* ProfileName is required for ... action *)
| InvalidCharacters   (* Profile name contains invalid characters *)
| LimitReached        (* Maximum profile limit (...) reached *)
| UserDataNotFound    (* User Data directory not found at: ... *)
| ProfileNotFound     (* Profile '...' not found *)
| ExecutableNotFound. (* Could not find Antigravity executable *)

(** The error classes of the design document. *)
Inductive ErrorKind :=
| InvalidName | CapacityExceeded | SourceMissing | NotFound
| ProcessHostUnavailable.

Definition kind (e : Error) : ErrorKind :=
  match e with
  | NameRequired | InvalidCharacters => InvalidName
  | LimitReached => CapacityExceeded
  | UserDataNotFound => SourceMissing
  | ProfileNotFound => NotFound
  | ExecutableNotFound => ProcessHostUnavailable
  end.

Inductive Outcome (A : Type) :=
| Done (a : A)
| Exit1 (e : Error).
Arguments Done {A} a.
Arguments Exit1 {A} e.

(** A script step: runs on the world, and either yields a value or exits. *)
Definition PS (A : Type) : Type := World -> Outcome A * World.

Definition ret {A} (a : A) : PS A := fun w => (Done a, w).
Definition exit1 {A} (e : Error) : PS A := fun w => (Exit1 e, w).
Definition bind {A B} (c : PS A) (k : A -> PS B) : PS B :=
  fun w => match c w with
           | (Done a, w') => k a w'
           | (Exit1 e, w') => (Exit1 e, w')
           end.
Definition get : PS World := fun w => (Done w, w).
Definition modify (f : World -> World) : PS unit := fun w => (Done tt, f w).
Definition when (b : bool) (c : PS unit) : PS unit := if b then c else ret tt.

Declare Scope ps_scope.
Delimit Scope ps_scope with ps.
Notation "x <- c ;; k" := (bind c (fun x => k))
  (at level 100, c at next level, right associativity) : ps_scope.
Notation "c ;; k" := (bind c (fun _ => k))
  (at level 100, right associativity) : ps_scope.
Local Open Scope ps_scope.

(** The hashtable [@{ Name = ..; Created = ..; Size = .. }] that
    [Get-Profiles] builds for a directory.  [Created] and [Size] keep the
    time stamp and the byte total that the script then formats. *)
Record Hashtable := {
  Name : string;
  Created : Z;
  Size : nat
}.

Definition Get_Profiles (w : World) : list Hashtable :=
  map (fun ke => {| Name := dirName ke.2;
                    Created := CreationTime ke.2;
                    Size := tree_bytes (contents ke.2) |})
      (map_to_list (Profiles w)).

(** What a variable holds after [$v = <command>]: nothing when the command
    wrote no object, the object itself when it wrote one, an array when it
    wrote several.  [return $profiles] in [Get-Profiles] writes the
    elements of the array one by one, so [$existingProfiles = Get-Profiles]
    in [Save-Profile] holds a bare hashtable when one profile exists. *)
Inductive PSValue :=
| PSNull
| PSObject (h : Hashtable)
| PSArray (items : list Hashtable).

Definition assign (output : list Hashtable) : PSValue :=
  match output with
  | [] => PSNull
  | [h] => PSObject h
  | _ => PSArray output
  end.

(** [@( <command> )] always holds an array. *)
Definition array_of (output : list Hashtable) : list Hashtable := output.

(** [.Count]: 0 on [$null], the number of keys on a hashtable (three
    here), the number of elements on an array. *)
Definition Count (v : PSValue) : Z :=
  match v with
  | PSNull => 0
  | PSObject _ => 3
  | PSArray items => Z.of_nat (length items)
  end.

Definition Where_Object (p : Hashtable -> bool) (v : PSValue)
  : list Hashtable :=
  match v with
  | PSNull => []
  | PSObject h => List.filter p [h]
  | PSArray items => List.filter p items
  end.

(** A value in a condition: [$null] is false, an object is true. *)
Definition truthy (v : PSValue) : bool :=
  match v with
  | PSNull => false
  | _ => true
  end.

(** [-eq] on strings disregards case (here: of the letters A-Z). *)
Definition ps_eq (a b : string) : bool :=
  String.eqb (fold_name a) (fold_name b).

(** [$Name -match ...] with the character class of [Save-Profile] is
    [has_reserved Name]: some character of the name is [reserved]. *)

Inductive Output :=
| Saved
| Loaded (Restarted : bool)
| Listing (Profiles : list Hashtable) (Count : nat) (MaxProfiles : Z)
| Deleted.

Definition Save_Profile (now MaxProfiles : Z) (Name : string) : PS Output :=
  when (has_reserved Name) (exit1 InvalidCharacters) ;;
  w <- get ;;
  let existingProfiles := assign (Get_Profiles w) in
  let profileExists :=
    assign (Where_Object (fun h => ps_eq (ProfileManager.Name h) Name)
                         existingProfiles) in
  when (negb (truthy profileExists)
        && (MaxProfiles <=? Count existingProfiles))
       (exit1 LimitReached) ;;
  match User w with
  | None => exit1 UserDataNotFound
  | Some data =>
      when (bool_decide (is_Some (profile_dir Name w)))
           (modify (fun w => emit (RemoveProfileDir Name)
                     (with_Profiles (delete (fold_name Name) (Profiles w)) w))) ;;
      modify (fun w => emit (CopyUserToProfile Name)
                (with_Profiles
                   (<[fold_name Name :=
                        {| dirName := Name; CreationTime := now;
                           contents := data |}]> (Profiles w)) w)) ;;
      ret Saved
  end.

Definition exe_LocalAppData : string :=
  "%LOCALAPPDATA%\Programs\Antigravity\Antigravity.exe".
Definition exe_ProgramFiles : string :=
  "%PROGRAMFILES%\Antigravity\Antigravity.exe".

Definition Switch_Profile (Name : string) : PS Output :=
  w <- get ;;
  match profile_dir Name w with
  | None => exit1 ProfileNotFound
  | Some profile =>
      let exePath :=
        if exe_in_LocalAppData w then Some exe_LocalAppData
        else if exe_in_ProgramFiles w then Some exe_ProgramFiles
        else None in
      match exePath with
      | None => exit1 ExecutableNotFound
      | Some exePath =>
          (* Stop Antigravity processes *)
          when (negb (running w =? 0)%nat)
               (modify (fun w => emit (StartSleep 3)
                          (emit StopProcess (with_running 0%nat w)))) ;;
          (* Backup current User Data *)
          w <- get ;;
          when (bool_decide (is_Some (User_switching_backup w)))
               (modify (fun w => emit RemoveBackup (with_backup None w))) ;;
          w <- get ;;
          when (bool_decide (is_Some (User w)))
               (modify (fun w => emit RenameUserToBackup
                          (with_User None (with_backup (User w) w)))) ;;
          (* Copy profile to User Data *)
          modify (fun w => emit (CopyProfileToUser Name)
                    (with_User (Some (contents profile)) w)) ;;
          (* Clean up backup in background *)
          w <- get ;;
          when (bool_decide (is_Some (User_switching_backup w)))
               (modify (emit StartCleanupJob)) ;;
          (* Restart *)
          modify (fun w => emit (StartProcess exePath)
                    (with_running (S (running w)) (emit (StartSleep 2) w))) ;;
          ret (Loaded true)
      end
  end.

Definition Remove_Profile (Name : string) : PS Output :=
  w <- get ;;
  match profile_dir Name w with
  | None => exit1 ProfileNotFound
  | Some _ =>
      modify (fun w => emit (RemoveProfileDir Name)
                (with_Profiles (delete (fold_name Name) (Profiles w)) w)) ;;
      ret Deleted
  end.

Definition List_Profiles (MaxProfiles : Z) : PS Output :=
  w <- get ;;
  let profiles := array_of (Get_Profiles w) in
  let count := length profiles in
  ret (Listing profiles count MaxProfiles).

Inductive Action := Save | Load | List | Delete.

(** The script: its parameters and the [switch ($Action)] at its end.
    [now] is the clock of the file system, read only when [Save] creates a
    directory.  The script first creates [Profiles] when it is missing;
    the store of the model is then the empty map. *)
Definition profile_manager (now : Z) (MaxProfiles : Z)
    (action : Action) (ProfileName : string) : PS Output :=
  match action with
  | Save =>
      if String.eqb ProfileName EmptyString then exit1 NameRequired
      else Save_Profile now MaxProfiles ProfileName
  | Load =>
      if String.eqb ProfileName EmptyString then exit1 NameRequired
      else Switch_Profile ProfileName
  | List => List_Profiles MaxProfiles
  | Delete =>
      if String.eqb ProfileName EmptyString then exit1 NameRequired
      else Remove_Profile ProfileName
  end.

(** [[int]$MaxProfiles = 5] *)
Definition MaxProfiles_default : Z := 5.

(** The operations of the design document, as runs of the script. *)
Definition SaveOp (now MaxProfiles : Z) (name : string) : PS Output :=
  profile_manager now MaxProfiles Save name.
Definition SwitchOp (name : string) : PS Output :=
  profile_manager 0 MaxProfiles_default Load name.
Definition DeleteOp (name : string) : PS Output :=
  profile_manager 0 MaxProfiles_default Delete name.
Definition ListOp (w : World) : list Hashtable :=
  array_of (Get_Profiles w).

(** A run of the script as the design document reports it: success, or
    the class of the error. *)
Definition verdict {A} (o : Outcome A) : option ErrorKind :=
  match o with
  | Done _ => None
  | Exit1 e => Some (kind e)
  end.

(** Successive runs of the script, all with the same [-MaxProfiles]. *)
Inductive Call :=
| CallSave (now : Z) (name : string)
| CallSwitch (name : string)
| CallDelete (name : string).

Definition call (MaxProfiles : Z) (c : Call) : PS Output :=
  match c with
  | CallSave now name => SaveOp now MaxProfiles name
  | CallSwitch name => profile_manager 0 MaxProfiles Load name
  | CallDelete name => profile_manager 0 MaxProfiles Delete name
  end.

Fixpoint session (MaxProfiles : Z) (calls : list Call) (w : World)
  : list (option ErrorKind) * World :=
  match calls with
  | [] => ([], w)
  | c :: rest =>
      let r := call MaxProfiles c w in
      let rs := session MaxProfiles rest r.2 in
      (verdict r.1 :: rs.1, rs.2)
  end.

(** Frames: a step stays within a relation between the world it starts
    in and the world it leaves. *)
Definition within (R : World -> World -> Prop) {A} (c : PS A) : Prop :=
  forall w, R w (c w).2.

(** [active_profile.txt] is as it was. *)
Definition same_pointer (w w' : World) : Prop :=
  active_profile_txt w' = active_profile_txt w.


End ProfileManager.

(** ** [extension.js]: log tail and command handlers *)

Module Extension.
Import Text Disk ProfileManager Detector.

(** *** The log tail (the [setInterval] callback) *)

(** One entry of [%APPDATA%\Antigravity\logs]: its name, whether it is a
    directory, and the bytes of its [main.log] when it has one. *)
Record DirEntry := {
  entryName : string;
  isDirectory : bool;
  main_log : option string
}.

(** [Array.prototype.sort] without a comparator, on distinct names. *)
Fixpoint insert_sorted (x : string) (l : list string) : list string :=
  match l with
  | [] => [x]
  | y :: r => if String.leb x y then x :: l else y :: insert_sorted x r
  end.

Definition sort (l : list string) : list string := foldr insert_sorted [] l.

(** [fs.readSync(fd, buffer, 0, length, position)] followed by
    [buffer.toString('utf8')]. *)
Definition readSync (file : string) (length position : Z) : string :=
  String.substring (Z.to_nat position) (Z.to_nat length) file.

Definition file_size (file : string) : Z := Z.of_nat (String.length file).

Definition READ_LIMIT : Z := 10000.

(** [let lastLogSize = 0;] *)
Definition lastLogSize_initial : Z := 0.

(** The first half of a cycle: the [main.log] of the log directory whose
    name sorts last, when there is one. *)
Definition mainLog_of (logs : option (list DirEntry)) : option string :=
  match logs with
  | None => None
  | Some entries =>
      let logDirs :=
        rev (sort (map entryName (List.filter isDirectory entries))) in
      match logDirs with
      | [] => None
      | newest :: _ =>
          match List.find (fun e => String.eqb (entryName e) newest)
                          entries with
          | None => None
          | Some dir => main_log dir
          end
      end
  end.

(** One cycle, up to the scan: the new [lastLogSize], and the text handed
    to [containsRateLimitError] when the cycle reads one. *)
Definition poll (logs : option (list DirEntry)) (lastLogSize : Z)
  : Z * option string :=
  match mainLog_of logs with
  | None => (lastLogSize, None)
  | Some mainLog =>
      let size := file_size mainLog in
      if size <=? lastLogSize then (lastLogSize, None)
      else
        let length := Z.min (size - lastLogSize) READ_LIMIT in
        let newContent := readSync mainLog length lastLogSize in
        (size, Some newContent)
  end.

(** The cursor over successive cycles. *)
Fixpoint poll_run (cycles : list (option (list DirEntry))) (lastLogSize : Z)
  : list Z :=
  match cycles with
  | [] => []
  | logs :: rest =>
      let last' := (poll logs lastLogSize).1 in
      last' :: poll_run rest last'
  end.

(** The bytes of [file] from offset [from] up to offset [to]. *)
Definition bytes_between (file : string) (from to : Z) : string :=
  String.substring (Z.to_nat from) (Z.to_nat (to - from)) file.

(** *** State of the extension *)

Inductive Notification :=
| AlreadyActive (name : string)
| SlotEmpty (slot : nat)
| FailedToSwitch (e : Error)
| SlotsFull
| ProfileSaved (name : string)
| FailedToSave (e : Error)
| NoProfilesToDelete
| ProfileDeleted (name : string)
| FailedToDelete (e : Error)
| NoProfilesSaved
| SavedProfiles (names : list string)
| MarkedActive (name : string)
| RateLimitNoProfiles
| RateLimitPrompt (choices : list string).

Record Ext := {
  world : World;
  lastRateLimitAlert : Z;
  lastLogSize : Z;
  shown : list Notification
}.

Definition on_world (f : World -> World) (x : Ext) : Ext :=
  {| world := f (world x); lastRateLimitAlert := lastRateLimitAlert x;
     lastLogSize := lastLogSize x; shown := shown x |}.

Definition show (n : Notification) (x : Ext) : Ext :=
  {| world := world x; lastRateLimitAlert := lastRateLimitAlert x;
     lastLogSize := lastLogSize x; shown := shown x ++ [n] |}.

Definition NUM_SLOTS : nat := 5.

(** [String.prototype.trim], on the white space of ASCII (JavaScript also
    strips U+00A0, U+FEFF and the other Unicode spaces). *)
Fixpoint trim_start (l : list ascii) : list ascii :=
  match l with
  | c :: r => if Ascii.is_space c then trim_start r else l
  | [] => []
  end.

Definition trim (s : string) : string :=
  String.string_of_list_ascii
    (rev (trim_start (rev (trim_start (String.list_ascii_of_string s))))).

Definition getActiveProfile (w : World) : option string :=
  trim <$> active_profile_txt w.

Definition setActiveProfile (profileName : string) (w : World) : World :=
  emit (WriteActiveProfile profileName) (with_active (Some profileName) w).

(** [runProfileManager]: the script is started without [-MaxProfiles].
    The command line is [-ProfileName] followed by the name between
    double quotes; a name without quotes, percent signs and a leading
    hyphen reaches the script as it is. *)
Definition runProfileManager (now : Z) (action : Action)
    (profileName : string) (w : World) : Outcome Output * World :=
  profile_manager now MaxProfiles_default action profileName w.

(** [getProfiles]: the [Profiles] array printed by the [List] action.
    The extension cuts it out of the output from the first opening
    bracket to the first closing one and parses it; with no bracket in a
    listed name that is the whole array. *)
Definition getProfiles (w : World) : list Hashtable :=
  match (runProfileManager 0 List EmptyString w).1 with
  | Done (Listing profiles _ _) => profiles
  | _ => []
  end.

(** [activeProfileName && activeProfileName.toLowerCase() ===
    name.toLowerCase()] *)
Definition isActive (activeProfileName : option string) (name : string)
  : bool :=
  match activeProfileName with
  | Some a => negb (String.eqb a EmptyString)
              && String.eqb (toLowerCase a) (toLowerCase name)
  | None => false
  end.

(** *** Command handlers.  What the user picks or types is an argument. *)

Definition slotAction (now : Z) (slotNum : nat) (x : Ext) : Ext :=
  let profiles := getProfiles (world x) in
  match profiles !! slotNum with
  | Some profile =>
      let profileName := Name profile in
      if isActive (getActiveProfile (world x)) profileName
      then show (AlreadyActive profileName) x
      else
        (* Save the profile name before switching *)
        let x := on_world (setActiveProfile profileName) x in
        let result := runProfileManager now Load profileName (world x) in
        let x := on_world (fun _ => result.2) x in
        match result.1 with
        | Exit1 e => show (FailedToSwitch e) x
        | Done _ => x
        end
  | None => show (SlotEmpty (slotNum + 1)) x
  end.

(** [validateInput] of the save command; [None] accepts the value. *)
Definition validateInput (profiles : list Hashtable) (value : string)
  : option string :=
  if String.eqb (trim value) EmptyString
  then Some "Profile name cannot be empty"
  else if some (fun p => String.eqb (toLowerCase (Name p))
                                    (toLowerCase value)) profiles
  then Some "A profile with this name already exists"
  else None.

(** The input box closes with a value that passed [validateInput], or
    with nothing. *)
Definition showInputBox (profiles : list Hashtable) (typed : option string)
  : option string :=
  match typed with
  | Some value =>
      match validateInput profiles value with
      | None => Some value
      | Some _ => None
      end
  | None => None
  end.

Definition saveProfile (now : Z) (typed : option string) (x : Ext) : Ext :=
  let profiles := getProfiles (world x) in
  if (NUM_SLOTS <=? length profiles)%nat then show SlotsFull x
  else
    match showInputBox profiles typed with
    | None => x
    | Some profileName =>
        if String.eqb profileName EmptyString then x
        else
          let result := runProfileManager now Save profileName (world x) in
          let x := on_world (fun _ => result.2) x in
          match result.1 with
          | Done _ =>
              show (ProfileSaved profileName)
                   (on_world (setActiveProfile profileName) x)
          | Exit1 e => show (FailedToSave e) x
          end
    end.

(** [showQuickPick]: one of the items, or nothing. *)
Definition showQuickPick (items : list string) (pick : option nat)
  : option string :=
  match pick with
  | Some i => items !! i
  | None => None
  end.


Definition switchProfile (now : Z) (pick : option nat) (x : Ext) : Ext :=
  let profiles := getProfiles (world x) in
  match profiles with
  | [] => show NoProfilesSaved x
  | _ =>
      match showQuickPick (map Name profiles) pick with
      | None => x
      | Some profileName =>
          let result := runProfileManager now Load profileName (world x) in
          let x := on_world (fun _ => result.2) x in
          match result.1 with
          | Exit1 e => show (FailedToSwitch e) x
          | Done _ => x
          end
      end
  end.

Definition listProfiles (x : Ext) : Ext :=
  let profiles := getProfiles (world x) in
  match profiles with
  | [] => show NoProfilesSaved x
  | _ => show (SavedProfiles (map Name profiles)) x
  end.

Definition setActiveProfileCommand (pick : option nat) (x : Ext) : Ext :=
  let profiles := getProfiles (world x) in
  match profiles with
  | [] => show NoProfilesSaved x
  | _ =>
      match showQuickPick (map Name profiles) pick with
      | None => x
      | Some profileName =>
          show (MarkedActive profileName)
               (on_world (setActiveProfile profileName) x)
      end
  end.

(** [handleRateLimitDetected]; [pick] is the button of the warning the
    user presses: a profile name or, last, Dismiss. *)
Definition handleRateLimitDetected (now : Z) (pick : option nat) (x : Ext)
  : Ext :=
  let '(go, last) := cooldown_gate now (lastRateLimitAlert x) in
  let x := {| world := world x; lastRateLimitAlert := last;
              lastLogSize := lastLogSize x; shown := shown x |} in
  if negb go then x
  else
    let profiles := getProfiles (world x) in
    match profiles with
    | [] => show RateLimitNoProfiles x
    | _ =>
        let buttons := map Name profiles ++ ["Dismiss"] in
        let x := show (RateLimitPrompt buttons) x in
        match showQuickPick buttons pick with
        | None => x
        | Some selected =>
            if String.eqb selected EmptyString
               || String.eqb selected "Dismiss" then x
            else
              on_world (fun w => (runProfileManager now Load selected w).2) x
        end
    end.

(** The diagnostics listener, on the messages of the changed documents. *)
Definition onDidChangeDiagnostics (now : Z) (messages : list string)
    (pick : option nat) (x : Ext) : Ext :=
  if some containsRateLimitError messages
  then handleRateLimitDetected now pick x
  else x.

(** The whole [setInterval] callback. *)
Definition logCheckInterval (now : Z) (logs : option (list DirEntry))
    (pick : option nat) (x : Ext) : Ext :=
  let '(last, newContent) := poll logs (lastLogSize x) in
  let x := {| world := world x; lastRateLimitAlert := lastRateLimitAlert x;
              lastLogSize := last; shown := shown x |} in
  match newContent with
  | Some text =>
      if containsRateLimitError text
      then handleRateLimitDetected now pick x
      else x
  | None => x
  end.

(** Whether a cycle calls [handleRateLimitDetected]. *)
Definition poll_detects (logs : option (list DirEntry)) (lastLogSize : Z)
  : bool :=
  match (poll logs lastLogSize).2 with
  | Some text => containsRateLimitError text
  | None => false
  end.

End Extension.

(** ** Sample data for the scenarios *)

Module Examples.
Import Text Disk ProfileManager Detector Extension.

Definition alice_session : DirTree :=
  [("globalStorage/state.vscdb", "alice-token")].
Definition bob_session : DirTree :=
  [("globalStorage/state.vscdb", "bob-token")].

(** A machine on which nothing was saved yet; Antigravity is running. *)
Definition fresh_install : World :=
  {| Profiles := ∅; User := Some alice_session;
     User_switching_backup := None; active_profile_txt := None;
     exe_in_LocalAppData := true; exe_in_ProgramFiles := false;
     running := 1%nat; trace := [] |}.

(** Profiles alice and bob are saved; bob is logged in and is the active
    profile. *)
Definition alice_and_bob : World :=
  {| Profiles :=
       <[ "alice" := {| dirName := "alice"; CreationTime := 1000;
                        contents := alice_session |} ]>
       (<[ "bob" := {| dirName := "bob"; CreationTime := 2000;
                       contents := bob_session |} ]> ∅);
     User := Some bob_session;
     User_switching_backup := None; active_profile_txt := Some "bob";
     exe_in_LocalAppData := true; exe_in_ProgramFiles := false;
     running := 1%nat; trace := [] |}.



(** Six saves against the default limit, then a delete and a retry. *)
Definition six_saves_then_delete : list Call :=
  [CallSave 1 "a"; CallSave 2 "b"; CallSave 3 "c"; CallSave 4 "d";
   CallSave 5 "e"; CallSave 6 "f"; CallDelete "a"; CallSave 7 "f"].


Definition started (w : World) : Ext :=
  {| world := w; lastRateLimitAlert := lastRateLimitAlert_initial;
     lastLogSize := lastLogSize_initial; shown := [] |}.

Fixpoint filler (n : nat) : string :=
  match n with
  | O => EmptyString
  | S n => String "x"%char (filler n)
  end.

(** A log of 10003 bytes whose last three are 429. *)
Definition long_log : string := filler (Z.to_nat READ_LIMIT) +:+ "429".

Definition logs_with (file : string) : option (list DirEntry) :=
  Some [ {| entryName := "20240101T090000"; isDirectory := true;
            main_log := None |};
         {| entryName := "20240102T090000"; isDirectory := true;
            main_log := Some file |};
         {| entryName := "telemetry.json"; isDirectory := false;
            main_log := None |} ].

End Examples.

(** ** Observations used by the further properties *)

Module Observed.
Import Text Disk ProfileManager Detector Extension Examples.

(** The clock readings at which successive calls of the gate went on to
    alert the user. *)
Fixpoint fired_at (nows : list Z) (lastRateLimitAlert : Z) : list Z :=
  match nows with
  | [] => []
  | now :: rest =>
      let '(fired, last') := cooldown_gate now lastRateLimitAlert in
      if fired then now :: fired_at rest last' else fired_at rest last'
  end.

(** Two alerts are a cooldown apart. *)
Definition cooled (earlier later : Z) : Prop :=
  RATE_LIMIT_COOLDOWN <= later - earlier.



(** A store in which one profile is called Dismiss. *)
Definition dismiss_saved : World :=
  (session 5 [CallSave 1 "Dismiss"; CallSave 2 "work"] fresh_install).2.

End Observed.

(** ** Plain names

    PowerShell reads the [-Path] of [Test-Path] and [Remove-Item] as a
    pattern ([*], [?], brackets, the backtick) and as a path ([.], [..], a
    trailing dot or space); [-eq], NTFS and JavaScript fold letters beyond
    A-Z; the extension pastes the name between double quotes into a
    command line and cuts the listing out of the output at the first
    closing bracket.  None of this touches a name made of ASCII letters
    and digits that is not a device name: such a name is one directory
    entry, looked up as [profile_dir] does, compared as [ps_eq] does, and
    handed over unchanged.  The properties of the store and of the
    commands are stated for such names, over stores that hold only
    such names. *)

Module Plain.
Import Text Disk ProfileManager Extension.












End Plain.

(** * Facts about text *)

Section TextFacts.
Import Text.

Lemma append_nil (s : string) : EmptyString +:+ s = s.
Proof. reflexivity. Qed.

Lemma append_cons (c : ascii) (s t : string) :
  String c s +:+ t = String c (s +:+ t).
Proof. reflexivity. Qed.

Lemma prefix_occurs_at_start (p s : string) :
  String.prefix p s = true <-> exists post, s = p +:+ post.
Proof.
  revert s. induction p as [|c p IH]; intros s.
  - split; [intros _; by exists s|intros _; by destruct s].
  - destruct s as [|d s]; simpl.
    + split; [done|]. intros [post H]. by rewrite append_cons in H.
    + destruct (ascii_dec c d) as [->|Hne].
      * split.
        -- intros H. apply IH in H as [post ->]. by exists post.
        -- intros [post H]. rewrite append_cons in H. inversion H.
           apply IH. by exists post.
      * split; [done|]. intros [post H]. rewrite append_cons in H.
        inversion H. congruence.
Qed.

Lemma includes_occurs (s p : string) : includes s p = true <-> occurs p s.
Proof.
  unfold occurs. induction s as [|c s IH].
  - cbn [includes]. rewrite orb_false_r, prefix_occurs_at_start. split.
    + intros [post H]. by exists EmptyString, post.
    + intros [pre [post H]]. destruct pre; [by exists post|].
      by rewrite append_cons in H.
  - cbn [includes]. rewrite orb_true_iff, prefix_occurs_at_start, IH. split.
    + intros [[post H]|[pre [post H]]].
      * by exists EmptyString, post.
      * exists (String c pre), post. rewrite append_cons. by rewrite H.
    + intros [pre [post H]]. destruct pre as [|d pre].
      * left. by exists post.
      * right. rewrite append_cons in H. inversion H. by exists pre, post.
Qed.

Lemma toLowerCase_append (s t : string) :
  toLowerCase (s +:+ t) = toLowerCase s +:+ toLowerCase t.
Proof.
  induction s as [|c s IH]; [reflexivity|].
  rewrite append_cons. simpl. by rewrite IH, append_cons.
Qed.

(** A lower-cased text splits where its original does. *)
Lemma toLowerCase_split (t a b : string) :
  toLowerCase t = a +:+ b ->
  exists t1 t2, t = t1 +:+ t2 /\ toLowerCase t1 = a /\ toLowerCase t2 = b.
Proof.
  revert t. induction a as [|c a IH]; intros t H.
  - by exists EmptyString, t.
  - destruct t as [|d t]; [by rewrite append_cons in H|].
    rewrite append_cons in H. simpl in H. inversion H as [[Hc Ht]].
    destruct (IH t Ht) as (t1 & t2 & -> & H1 & H2).
    exists (String d t1), t2. rewrite append_cons. simpl.
    by rewrite H1.
Qed.

Lemma is_upper_bound (c : ascii) :
  is_upper c = true -> (65 <= nat_of_ascii c <= 90)%nat.
Proof.
  unfold is_upper. rewrite andb_true_iff, !Nat.leb_le. lia.
Qed.

Lemma lower_ascii_upper_code (c : ascii) :
  is_upper c = true ->
  nat_of_ascii (lower_ascii c) = (nat_of_ascii c + 32)%nat.
Proof.
  intros H. unfold lower_ascii. rewrite H.
  apply nat_ascii_embedding. apply is_upper_bound in H. lia.
Qed.

Lemma lower_ascii_not_upper (c : ascii) : is_upper (lower_ascii c) = false.
Proof.
  destruct (is_upper c) eqn:H.
  - unfold is_upper. rewrite (lower_ascii_upper_code _ H).
    apply is_upper_bound in H. apply andb_false_iff. right.
    apply Nat.leb_gt. lia.
  - unfold lower_ascii. by rewrite H.
Qed.

Lemma lower_ascii_idem (c : ascii) :
  lower_ascii (lower_ascii c) = lower_ascii c.
Proof.
  unfold lower_ascii at 1. by rewrite lower_ascii_not_upper.
Qed.

Lemma lower_ascii_same_letter (a b : ascii) :
  lower_ascii a = lower_ascii b <-> same_letter a b.
Proof.
  split.
  - intros H. destruct (is_upper a) eqn:Ha, (is_upper b) eqn:Hb.
    + left. apply (f_equal nat_of_ascii) in H.
      rewrite !lower_ascii_upper_code in H by done.
      rewrite <- (ascii_nat_embedding a), <- (ascii_nat_embedding b).
      f_equal. lia.
    + right; left. split; [done|]. rewrite H. unfold lower_ascii. by rewrite Hb.
    + right; right. split; [done|]. rewrite <- H. unfold lower_ascii. by rewrite Ha.
    + left. unfold lower_ascii in H. by rewrite Ha, Hb in H.
  - intros [->|[[_ ->]|[_ ->]]]; [done| |]; by rewrite lower_ascii_idem.
Qed.

Lemma toLowerCase_equal_ignoring_case (s t : string) :
  toLowerCase s = toLowerCase t <-> equal_ignoring_case s t.
Proof.
  split.
  - revert t. induction s as [|a s IH]; intros [|b t] H; try done.
    + constructor.
    + simpl in H. inversion H. constructor.
      * by apply lower_ascii_same_letter.
      * by apply IH.
  - induction 1 as [|a b s t Hab _ IH]; [done|].
    simpl. apply lower_ascii_same_letter in Hab. by rewrite Hab, IH.
Qed.

(** What the detector computes for one pattern, against its meaning. *)
Lemma includes_lower_occurs_ignoring_case (kw text : string) :
  includes (toLowerCase text) (toLowerCase kw) = true
  <-> occurs_ignoring_case kw text.
Proof.
  rewrite includes_occurs. unfold occurs_ignoring_case, occurs. split.
  - intros (pre & post & H).
    apply toLowerCase_split in H as (t1 & r & -> & <- & H).
    apply toLowerCase_split in H as (mid & t3 & -> & Hmid & <-).
    exists mid. split; [by exists t1, t3|].
    by apply toLowerCase_equal_ignoring_case.
  - intros (mid & (pre & post & ->) & H).
    apply toLowerCase_equal_ignoring_case in H.
    exists (toLowerCase pre), (toLowerCase post).
    by rewrite !toLowerCase_append, H.
Qed.

End TextFacts.

Section DetectorFacts.
Import Text Detector.

Lemma containsRateLimitError_iff (text : string) :
  containsRateLimitError text = true
  <-> exists kw, In kw RATE_LIMIT_PATTERNS /\ occurs_ignoring_case kw text.
Proof.
  unfold containsRateLimitError, some. rewrite existsb_exists.
  split; intros (kw & Hin & H); exists kw; (split; [done|]);
    by apply includes_lower_occurs_ignoring_case.
Qed.

(** Claim C5.  [containsRateLimitError] answers true exactly when some
    pattern of the fixed list occurs in the text ignoring case; it is true
    on the resource-exhausted error line and false on the build line. *)
Theorem Matches_case_insensitive_substring :
  (forall text, containsRateLimitError text = true
     <-> exists kw, In kw RATE_LIMIT_PATTERNS /\ occurs_ignoring_case kw text)
  /\ containsRateLimitError "Error: RESOURCE_EXHAUSTED" = true
  /\ containsRateLimitError "build succeeded" = false.
Proof.
  split; [exact containsRateLimitError_iff|]. split; vm_compute; reflexivity.
Qed.

(** Claim C10.  Any text in which the three characters 429 occur, wherever
    they stand, is reported as a rate-limit error. *)
Theorem Matches_any_429 (text : string) :
  occurs "429" text -> containsRateLimitError text = true.
Proof.
  intros H. apply containsRateLimitError_iff. exists "429". split.
  - unfold RATE_LIMIT_PATTERNS. simpl. tauto.
  - exists "429". split; [done|]. by apply toLowerCase_equal_ignoring_case.
Qed.

(** The digits inside a date, a time and a build number. *)
Lemma Matches_any_429_witness :
  occurs "429" "2024-04-29 14:29:07 build 1429 ok"
  /\ containsRateLimitError "2024-04-29 14:29:07 build 1429 ok" = true.
Proof.
  assert (H : occurs "429" "2024-04-29 14:29:07 build 1429 ok").
  { exists "2024-04-29 14:29:07 build 1", " ok". reflexivity. }
  split; [exact H|]. exact (Matches_any_429 _ H).
Defined.

End DetectorFacts.

Section CooldownFacts.
Import Detector.

Lemma cooldown_gate_closed (now last : Z) :
  now - last < RATE_LIMIT_COOLDOWN -> cooldown_gate now last = (false, last).
Proof.
  intros H. unfold cooldown_gate.
  by destruct (Z.ltb_spec (now - last) RATE_LIMIT_COOLDOWN); [|lia].
Qed.

Lemma cooldown_gate_open (now last : Z) :
  RATE_LIMIT_COOLDOWN <= now - last -> cooldown_gate now last = (true, now).
Proof.
  intros H. unfold cooldown_gate.
  by destruct (Z.ltb_spec (now - last) RATE_LIMIT_COOLDOWN); [lia|].
Qed.

(** Claim C4, amended.  The gate answers false and keeps its state while
    [now - lastRateLimitAlert] is below the cooldown, and otherwise
    answers true and records [now]; from the initial state, and for a
    first reading [t0] at least one cooldown after the zero of the clock,
    the calls at [t0], [t0 + 30 s] and [t0 + 61 s] answer true, false,
    true. *)
Theorem cooldown_gate_window (now last t0 : Z) :
  RATE_LIMIT_COOLDOWN <= t0 ->
  (now - last < RATE_LIMIT_COOLDOWN -> cooldown_gate now last = (false, last))
  /\ (~ now - last < RATE_LIMIT_COOLDOWN -> cooldown_gate now last = (true, now))
  /\ gate_run [t0; t0 + 30000; t0 + 61000] lastRateLimitAlert_initial
     = [true; false; true].
Proof.
  intros Ht0. split; [apply cooldown_gate_closed|]. split.
  - intros H. apply cooldown_gate_open. lia.
  - unfold gate_run, lastRateLimitAlert_initial.
    rewrite (cooldown_gate_open t0 0) by lia.
    rewrite (cooldown_gate_closed (t0 + 30000) t0) by (unfold RATE_LIMIT_COOLDOWN; lia).
    rewrite (cooldown_gate_open (t0 + 61000) t0) by (unfold RATE_LIMIT_COOLDOWN; lia).
    reflexivity.
Qed.

(** A reading of [Date.now()] from the year 2023. *)
Lemma cooldown_gate_window_witness :
  RATE_LIMIT_COOLDOWN <= 1700000000000
  /\ (1700000030000 - 1700000000000 < RATE_LIMIT_COOLDOWN ->
      cooldown_gate 1700000030000 1700000000000 = (false, 1700000000000))
  /\ (~ 1700000030000 - 1700000000000 < RATE_LIMIT_COOLDOWN ->
      cooldown_gate 1700000030000 1700000000000 = (true, 1700000030000))
  /\ gate_run [1700000000000; 1700000000000 + 30000; 1700000000000 + 61000]
       lastRateLimitAlert_initial = [true; false; true].
Proof.
  assert (H : RATE_LIMIT_COOLDOWN <= 1700000000000)
    by (unfold RATE_LIMIT_COOLDOWN; lia).
  split; [exact H|].
  exact (cooldown_gate_window 1700000030000 1700000000000 1700000000000 H).
Defined.

(** Claim C4 as first stated fails for a clock that reads less than one
    cooldown: the initial state 0 then counts as a recent alert, and the
    three calls answer false, true, false. *)
Lemma cooldown_gate_first_minute :
  cooldown_gate 30000 lastRateLimitAlert_initial
    = (false, lastRateLimitAlert_initial)
  /\ gate_run [30000; 30000 + 30000; 30000 + 61000] lastRateLimitAlert_initial
     = [false; true; false].
Proof. split; reflexivity. Qed.

End CooldownFacts.

Section LogTailFacts.
Import Text Detector Extension Examples.

Lemma poll_skip (logs : option (list DirEntry)) (last : Z) (mainLog : string) :
  mainLog_of logs = Some mainLog -> file_size mainLog <= last ->
  poll logs last = (last, None).
Proof.
  intros Hlog Hsize. unfold poll. rewrite Hlog. cbv zeta.
  by destruct (Z.leb_spec (file_size mainLog) last); [|lia].
Qed.

Lemma poll_no_log (logs : option (list DirEntry)) (last : Z) :
  mainLog_of logs = None -> poll logs last = (last, None).
Proof. intros Hlog. unfold poll. by rewrite Hlog. Qed.

Lemma poll_grown (logs : option (list DirEntry)) (last : Z) (mainLog : string) :
  mainLog_of logs = Some mainLog -> last < file_size mainLog ->
  poll logs last
  = (file_size mainLog,
     Some (readSync mainLog (Z.min (file_size mainLog - last) READ_LIMIT) last)).
Proof.
  intros Hlog Hsize. unfold poll. rewrite Hlog. cbv zeta.
  by destruct (Z.leb_spec (file_size mainLog) last); [lia|].
Qed.

(** A cycle either keeps the cursor or moves it up to the size it saw. *)
Lemma poll_cursor (logs : option (list DirEntry)) (last : Z) :
  (poll logs last).1 = last
  \/ exists mainLog, mainLog_of logs = Some mainLog
       /\ last < file_size mainLog /\ (poll logs last).1 = file_size mainLog.
Proof.
  destruct (mainLog_of logs) as [mainLog|] eqn:Hlog.
  - destruct (Z.le_gt_cases (file_size mainLog) last) as [H|H].
    + left. by rewrite (poll_skip _ _ _ Hlog H).
    + right. exists mainLog. by rewrite (poll_grown _ _ _ Hlog H).
  - left. by rewrite poll_no_log.
Qed.

Lemma poll_cursor_le (logs : option (list DirEntry)) (last : Z) :
  last <= (poll logs last).1.
Proof.
  destruct (poll_cursor logs last) as [->|(m & _ & H & ->)]; lia.
Qed.

Lemma poll_run_sorted (cycles : list (option (list DirEntry))) (last : Z) :
  Sorted Z.le (last :: poll_run cycles last).
Proof.
  revert last. induction cycles as [|logs cycles IH]; intros last.
  - repeat constructor.
  - cbn [poll_run]. constructor; [apply IH|].
    constructor. apply poll_cursor_le.
Qed.

(** Claim C8.  Over any sequence of cycles the cursor never decreases; a
    cycle that finds the log no larger than the cursor reads nothing and
    keeps the cursor; and a cycle changes the cursor only to the size of a
    log it found strictly larger. *)
Theorem log_cursor_never_decreases
    (cycles : list (option (list DirEntry)))
    (logs : option (list DirEntry)) (lastLogSize : Z) :
  Sorted Z.le (lastLogSize :: poll_run cycles lastLogSize)
  /\ (forall mainLog, mainLog_of logs = Some mainLog ->
        file_size mainLog <= lastLogSize ->
        poll logs lastLogSize = (lastLogSize, None))
  /\ ((poll logs lastLogSize).1 <> lastLogSize ->
        exists mainLog, mainLog_of logs = Some mainLog
          /\ lastLogSize < file_size mainLog
          /\ (poll logs lastLogSize).1 = file_size mainLog).
Proof.
  split; [apply poll_run_sorted|]. split.
  - intros mainLog. apply poll_skip.
  - intros H. by destruct (poll_cursor logs lastLogSize).
Qed.

Lemma bytes_between_readSync (file : string) (from len : Z) :
  bytes_between file from (from + len) = readSync file len from.
Proof. unfold bytes_between, readSync. do 2 f_equal. lia. Qed.

(** Claim C9, amended.  A cycle that finds the log larger than the cursor
    reads the bytes from the cursor on, but at most [READ_LIMIT] of them,
    scans exactly those, and moves the cursor to the new size; the bytes
    read are the whole growth when it is at most [READ_LIMIT]. *)
Theorem poll_reads_delta_up_to_limit
    (logs : option (list DirEntry)) (lastLogSize : Z) (mainLog : string) :
  mainLog_of logs = Some mainLog ->
  lastLogSize < file_size mainLog ->
  let size := file_size mainLog in
  let stop := lastLogSize + Z.min (size - lastLogSize) READ_LIMIT in
  poll logs lastLogSize = (size, Some (bytes_between mainLog lastLogSize stop))
  /\ poll_detects logs lastLogSize
     = containsRateLimitError (bytes_between mainLog lastLogSize stop)
  /\ (size - lastLogSize <= READ_LIMIT -> stop = size).
Proof.
  intros Hlog Hsize size stop. unfold poll_detects.
  rewrite (poll_grown _ _ _ Hlog Hsize). unfold stop.
  rewrite bytes_between_readSync. repeat split. subst size. lia.
Qed.

(** A cycle that starts at offset 5 of the long log. *)
Lemma poll_reads_delta_up_to_limit_witness :
  mainLog_of (logs_with long_log) = Some long_log
  /\ 5 < file_size long_log
  /\ poll (logs_with long_log) 5
     = (file_size long_log, Some (bytes_between long_log 5 (5 + Z.min (file_size long_log - 5) READ_LIMIT))).
Proof.
  assert (H1 : mainLog_of (logs_with long_log) = Some long_log)
    by (vm_compute; reflexivity).
  assert (H2 : 5 < file_size long_log) by (vm_compute; reflexivity).
  split; [exact H1|]. split; [exact H2|].
  exact (proj1 (poll_reads_delta_up_to_limit _ 5 _ H1 H2)).
Defined.

(** Claim C9 as first stated fails on a growth of 10003 bytes: the whole
    growth contains a pattern, the cycle reads 10000 bytes, detects
    nothing, and moves the cursor past the rest. *)
Lemma poll_misses_text_past_limit :
  mainLog_of (logs_with long_log) = Some long_log
  /\ lastLogSize_initial < file_size long_log
  /\ containsRateLimitError
       (bytes_between long_log lastLogSize_initial (file_size long_log)) = true
  /\ (poll (logs_with long_log) lastLogSize_initial).1 = file_size long_log
  /\ poll_detects (logs_with long_log) lastLogSize_initial = false
  /\ (option_map String.length (poll (logs_with long_log) lastLogSize_initial).2)
     = Some (Z.to_nat READ_LIMIT).
Proof. repeat split; vm_compute; reflexivity. Qed.

End LogTailFacts.

(** * The profile store *)

(** Unfolds the script and its monad down to matches on the world. *)
Ltac ps_unfold :=
  unfold ProfileManager.SaveOp, ProfileManager.SwitchOp,
    ProfileManager.DeleteOp, ProfileManager.profile_manager,
    ProfileManager.Save_Profile, ProfileManager.Switch_Profile,
    ProfileManager.Remove_Profile, ProfileManager.List_Profiles,
    ProfileManager.bind, ProfileManager.when, ProfileManager.ret,
    ProfileManager.exit1, ProfileManager.get, ProfileManager.modify.

Section StoreFacts.
Import Text Disk ProfileManager Examples.








(** Above one element [.Count] is the number of profiles. *)
Lemma Count_assign_array (l : list Hashtable) :
  (2 <= length l)%nat -> Count (assign l) = Z.of_nat (length l).
Proof. destruct l as [|h [|h' l]]; cbn [assign Count length]; [lia..|done]. Qed.






Lemma In_ListOp (w : World) (h : Hashtable) :
  In h (ListOp w) <->
  exists k e, Profiles w !! k = Some e
    /\ h = {| Name := dirName e; Created := CreationTime e;
              Size := tree_bytes (contents e) |}.
Proof.
  unfold ListOp, array_of, Get_Profiles. rewrite in_map_iff. split.
  - intros ([k e] & <- & Hin). exists k, e. split; [|done].
    by apply elem_of_map_to_list, list_elem_of_In.
  - intros (k & e & Hke & ->). exists (k, e). split; [done|].
    by apply list_elem_of_In, elem_of_map_to_list.
Qed.


Lemma listed_well_formed (w : World) (h : Hashtable) :
  store_ok (Profiles w) -> In h (ListOp w) ->
  Name h <> EmptyString /\ has_reserved (Name h) = false.
Proof.
  intros Hok Hin. apply In_ListOp in Hin as (k & e & Hke & ->).
  by destruct (Hok k e Hke) as (_ & ? & ?).
Qed.


End StoreFacts.

(** * Plain names *)

Section PlainFacts.
Import Text Disk ProfileManager Extension Plain.


















End PlainFacts.

Section SaveFacts.
Import Text Disk ProfileManager Examples Plain.








End SaveFacts.

Section SwitchDeleteFacts.
Import Text Disk ProfileManager Examples Plain.




End SwitchDeleteFacts.

(** * Frames of the script *)

Section Frame.
Import Disk ProfileManager.
Variable R : World -> World -> Prop.
Hypothesis R_refl : forall w, R w w.
Hypothesis R_trans : forall w1 w2 w3, R w1 w2 -> R w2 w3 -> R w1 w3.

Lemma within_ret {A} (a : A) : within R (ret a).
Proof. intros w. apply R_refl. Qed.

Lemma within_exit1 {A} (e : Error) : within R (@exit1 A e).
Proof. intros w. apply R_refl. Qed.

Lemma within_get : within R get.
Proof. intros w. apply R_refl. Qed.

Lemma within_modify (f : World -> World) :
  (forall w, R w (f w)) -> within R (modify f).
Proof. intros Hf w. apply Hf. Qed.

Lemma within_bind {A B} (c : PS A) (k : A -> PS B) :
  within R c -> (forall a, within R (k a)) -> within R (bind c k).
Proof.
  intros Hc Hk w. unfold bind. specialize (Hc w).
  destruct (c w) as [[a|e] w']; cbn in *; [|done].
  eapply R_trans; [exact Hc|apply Hk].
Qed.

Lemma within_when (b : bool) (c : PS unit) :
  within R c -> within R (when b c).
Proof. intros Hc. destruct b; [done|apply within_ret]. Qed.

(** Every change the script makes is one of these. *)
Hypothesis R_emit : forall e w, R w (emit e w).
Hypothesis R_Profiles : forall p w, R w (with_Profiles p w).
Hypothesis R_User : forall u w, R w (with_User u w).
Hypothesis R_backup : forall b w, R w (with_backup b w).
Hypothesis R_running : forall n w, R w (with_running n w).

Ltac frame :=
  repeat first
    [ apply within_ret | apply within_exit1 | apply within_get
    | apply within_when
    | apply within_modify; intros;
      repeat first [ apply R_refl
                   | eapply R_trans; [|apply R_emit]
                   | eapply R_trans; [|apply R_Profiles]
                   | eapply R_trans; [|apply R_User]
                   | eapply R_trans; [|apply R_backup]
                   | eapply R_trans; [|apply R_running] ]
    | apply within_bind; [|intros ?] ].

Lemma Save_Profile_within (now MaxProfiles : Z) (name : string) :
  within R (Save_Profile now MaxProfiles name).
Proof. unfold Save_Profile. frame. destruct (User _); frame. Qed.

Lemma Switch_Profile_within (name : string) : within R (Switch_Profile name).
Proof.
  unfold Switch_Profile. frame. destruct (profile_dir _ _); frame.
  destruct (exe_in_LocalAppData _); frame.
  destruct (exe_in_ProgramFiles _); frame.
Qed.

Lemma Remove_Profile_within (name : string) : within R (Remove_Profile name).
Proof. unfold Remove_Profile. frame. destruct (profile_dir _ _); frame. Qed.

Lemma profile_manager_within
    (now MaxProfiles : Z) (action : Action) (name : string) :
  within R (profile_manager now MaxProfiles action name).
Proof.
  unfold profile_manager. destruct action.
  - destruct (String.eqb name EmptyString);
      [apply within_exit1|apply Save_Profile_within].
  - destruct (String.eqb name EmptyString);
      [apply within_exit1|apply Switch_Profile_within].
  - unfold List_Profiles. frame.
  - destruct (String.eqb name EmptyString);
      [apply within_exit1|apply Remove_Profile_within].
Qed.

End Frame.

Section ScriptFrames.
Import Disk ProfileManager.

Lemma profile_manager_same_pointer
    (now MaxProfiles : Z) (action : Action) (name : string) :
  within same_pointer (profile_manager now MaxProfiles action name).
Proof.
  apply profile_manager_within; unfold same_pointer; try done.
  intros w1 w2 w3 H12 H23. by rewrite H23.
Qed.


End ScriptFrames.

Section DeleteFacts.
Import Text Disk ProfileManager Extension Examples Plain.





End DeleteFacts.

Section PointerFacts.
Import Text Disk ProfileManager Detector Extension Examples.

(** The palette command and the rate-limit prompt run [Load] and never
    write [active_profile.txt]. *)
Lemma switchProfile_same_pointer (now : Z) (pick : option nat) (x : Ext) :
  active_profile_txt (world (switchProfile now pick x))
  = active_profile_txt (world x).
Proof.
  unfold switchProfile. destruct (getProfiles (world x)); [done|].
  destruct (showQuickPick _ pick) as [profileName|]; [|done].
  pose proof (profile_manager_same_pointer now MaxProfiles_default Load
                profileName (world x)) as H.
  unfold runProfileManager.
  by destruct (profile_manager _ _ _ _ _) as [[?|?] ?].
Qed.

Lemma handleRateLimitDetected_same_pointer
    (now : Z) (pick : option nat) (x : Ext) :
  active_profile_txt (world (handleRateLimitDetected now pick x))
  = active_profile_txt (world x).
Proof.
  unfold handleRateLimitDetected.
  destruct (cooldown_gate now (lastRateLimitAlert x)) as [[|] last];
    cbn [negb world]; [|done].
  destruct (getProfiles (world x)); [done|].
  destruct (showQuickPick _ pick) as [selected|]; [|done].
  destruct (_ || _); [done|]. cbn.
  apply (profile_manager_same_pointer now MaxProfiles_default Load selected).
Qed.


(** A save that the script accepts sets the pointer. *)
Lemma saveProfile_sets_pointer (now : Z) (name : string) (x : Ext) (w' : World) :
  (length (getProfiles (world x)) < NUM_SLOTS)%nat ->
  validateInput (getProfiles (world x)) name = None ->
  runProfileManager now Save name (world x) = (Done Saved, w') ->
  active_profile_txt (world (saveProfile now (Some name) x)) = Some name.
Proof.
  intros Hslots Hvalid Hrun. unfold saveProfile.
  destruct (Nat.leb_spec NUM_SLOTS (length (getProfiles (world x)))); [lia|].
  cbn [showInputBox]. rewrite Hvalid.
  destruct (String.eqb name EmptyString) eqn:Hempty.
  - apply String.eqb_eq in Hempty. subst name.
    unfold runProfileManager, profile_manager in Hrun. cbn in Hrun. done.
  - by rewrite Hrun.
Qed.

(** Claim C6, at the input where the code departs from it.  With alice and
    bob saved and bob active, picking alice in the palette command loads
    the session of alice and leaves the pointer at bob, where the slot
    button sets it to alice. *)
Theorem switchProfile_command_leaves_pointer :
  showQuickPick (map Name (getProfiles alice_and_bob)) (Some 0%nat)
    = Some "alice"
  /\ active_profile_txt alice_and_bob = Some "bob"
  /\ User (world (switchProfile 5000 (Some 0%nat) (started alice_and_bob)))
     = Some alice_session
  /\ active_profile_txt
       (world (switchProfile 5000 (Some 0%nat) (started alice_and_bob)))
     = Some "bob"
  /\ active_profile_txt
       (world (slotAction 5000 0%nat (started alice_and_bob)))
     = Some "alice".
Proof. repeat split; vm_compute; reflexivity. Qed.

End PointerFacts.

Section StoreInvariant.
Import Text Disk ProfileManager Examples.

Lemma store_ok_empty : store_ok ∅.
Proof. intros k e H. by rewrite lookup_empty in H. Qed.

Lemma store_ok_delete (p : gmap string Entry) (k : string) :
  store_ok p -> store_ok (delete k p).
Proof.
  intros Hok k' e H. apply lookup_delete_Some in H as [_ H]. by apply Hok.
Qed.

Lemma store_ok_insert (p : gmap string Entry) (e : Entry) :
  store_ok p -> dirName e <> EmptyString -> has_reserved (dirName e) = false ->
  store_ok (<[fold_name (dirName e) := e]> p).
Proof.
  intros Hok Hne Hres k' e' H.
  apply lookup_insert_Some in H as [[<- <-]|[_ H]]; [done|by apply Hok].
Qed.

Lemma Switch_Profile_store (name : string) (w : World) :
  Profiles (Switch_Profile name w).2 = Profiles w.
Proof.
  destruct w as [P [u|] [b|] a [|] [|] [|r] t]; ps_unfold; cbn;
    by destruct (profile_dir name _).
Qed.

(** Every run of the script keeps the store well formed. *)
Lemma profile_manager_store_ok
    (now MaxProfiles : Z) (action : Action) (name : string) (w : World) :
  store_ok (Profiles w) ->
  store_ok (Profiles (profile_manager now MaxProfiles action name w).2).
Proof.
  intros Hok. unfold profile_manager. destruct action.
  - destruct (String.eqb name EmptyString) eqn:Hname; [done|].
    apply String.eqb_neq in Hname. unfold Save_Profile, bind, when, ret,
      exit1, get, modify.
    destruct (has_reserved name) eqn:Hres; [done|].
    destruct (_ && _); [done|]. destruct (User w); [|done].
    destruct (bool_decide _); cbn;
      apply (store_ok_insert _ {| dirName := name |}); try done.
    by apply store_ok_delete.
  - destruct (String.eqb name EmptyString); [done|].
    by rewrite Switch_Profile_store.
  - done.
  - destruct (String.eqb name EmptyString); [done|].
    ps_unfold. destruct (profile_dir name w); [|done]. cbn.
    by apply store_ok_delete.
Qed.

End StoreInvariant.

(** * Further properties of the script *)

Section ScriptOutcomes.
Import Text Disk ProfileManager Examples Observed Plain.









End ScriptOutcomes.

Section ScriptComposition.
Import Text Disk ProfileManager Examples Observed Plain.








End ScriptComposition.

Section SessionInvariants.
Import Text Disk ProfileManager Examples Observed Plain.

Lemma call_is_run (MaxProfiles : Z) (c : Call) :
  exists now action name,
    call MaxProfiles c = profile_manager now MaxProfiles action name.
Proof.
  destruct c as [now name|name|name]; cbn; unfold SaveOp.
  - by exists now, Save, name.
  - by exists 0, Load, name.
  - by exists 0, Delete, name.
Qed.






Lemma listed_names_distinct (w : World) :
  store_ok (Profiles w) ->
  NoDup (map (fun h => fold_name (Name h)) (ListOp w)).
Proof.
  intros Hok. unfold ListOp, array_of, Get_Profiles.
  assert (Hkeys : forall l : list (string * Entry),
            Forall (fun ke => ke.1 = fold_name (dirName ke.2)) l ->
            map (fun h => fold_name (Name h))
              (map (fun ke : string * Entry =>
                      {| Name := dirName ke.2; Created := CreationTime ke.2;
                         Size := tree_bytes (contents ke.2) |}) l)
            = l.*1).
  { induction 1 as [|ke l Hke _ IH]; [done|]. cbn. by rewrite IH, Hke. }
  rewrite Hkeys; [apply NoDup_fst_map_to_list|].
  apply Forall_forall. intros [k e] Hin. cbn.
  apply elem_of_map_to_list in Hin. by destruct (Hok _ _ Hin) as (-> & _).
Qed.

(** Property X8.  Any sequence of runs of the script keeps the store well
    kept: the listed names stay distinct ignoring case, non-empty and free
    of reserved characters. *)
Theorem session_keeps_store_well_formed
    (MaxProfiles : Z) (calls : list Call) (w : World) :
  store_ok (Profiles w) ->
  store_ok (Profiles (session MaxProfiles calls w).2)
  /\ NoDup (map (fun h => fold_name (Name h))
              (ListOp (session MaxProfiles calls w).2))
  /\ Forall (fun h => Name h <> EmptyString /\ has_reserved (Name h) = false)
       (ListOp (session MaxProfiles calls w).2).
Proof.
  intros Hok.
  assert (H : store_ok (Profiles (session MaxProfiles calls w).2)).
  { revert w Hok. induction calls as [|c calls IH]; intros w Hok; [done|].
    cbn [session snd]. apply IH.
    destruct (call_is_run MaxProfiles c) as (now & action & name & ->).
    by apply profile_manager_store_ok. }
  split; [done|]. split; [by apply listed_names_distinct|].
  apply Forall_forall. intros h Hh. apply list_elem_of_In in Hh.
  by apply (listed_well_formed _ h H).
Qed.

Lemma session_keeps_store_well_formed_witness :
  NoDup (map (fun h => fold_name (Name h))
           (ListOp (session 5 six_saves_then_delete fresh_install).2))
  /\ Forall (fun h => Name h <> EmptyString /\ has_reserved (Name h) = false)
       (ListOp (session 5 six_saves_then_delete fresh_install).2).
Proof.
  exact (proj2 (session_keeps_store_well_formed 5 six_saves_then_delete
                  fresh_install store_ok_empty)).
Defined.




End SessionInvariants.

(** * Further properties of the detector *)

Section GateFacts.
Import Detector Observed.

Lemma cooled_trans (a b c : Z) : cooled a b -> cooled b c -> cooled a c.
Proof. unfold cooled, RATE_LIMIT_COOLDOWN. lia. Qed.

Lemma fired_at_spaced (nows : list Z) (last : Z) :
  StronglySorted cooled (fired_at nows last)
  /\ Forall (cooled last) (fired_at nows last).
Proof.
  revert last. induction nows as [|now rest IH]; intros last.
  - split; constructor.
  - cbn [fired_at]. unfold cooldown_gate.
    destruct (Z.ltb_spec (now - last) RATE_LIMIT_COOLDOWN) as [Hin|Hout].
    + apply IH.
    + destruct (IH now) as [Hs Hf]. split.
      * by constructor.
      * constructor; [done|].
        eapply Forall_impl; [exact Hf|]. intros t Ht.
        by apply (cooled_trans last now t).
Qed.

(** Property X10.  Whatever the clock readings, any two calls of the gate
    that went on to alert are at least one cooldown apart, each is at least
    one cooldown after the initial state, and they are the calls that
    [gate_run] answers true. *)
Theorem alerts_spaced_by_cooldown (nows : list Z) (lastRateLimitAlert : Z) :
  StronglySorted cooled (fired_at nows lastRateLimitAlert)
  /\ Forall (cooled lastRateLimitAlert) (fired_at nows lastRateLimitAlert)
  /\ length (fired_at nows lastRateLimitAlert)
     = length (List.filter id (gate_run nows lastRateLimitAlert)).
Proof.
  split; [apply fired_at_spaced|]. split; [apply fired_at_spaced|].
  revert lastRateLimitAlert.
  induction nows as [|now rest IH]; intros last; [done|].
  cbn [fired_at gate_run].
  destruct (cooldown_gate now last) as [[|] last']; cbn; by rewrite IH.
Qed.

End GateFacts.

Section MatcherFacts.
Import Text Detector.

Lemma append_assoc (s t u : string) : (s +:+ t) +:+ u = s +:+ t +:+ u.
Proof.
  induction s as [|c s IH]; [reflexivity|].
  rewrite !append_cons. by rewrite IH.
Qed.

Lemma occurs_trans (a b c : string) : occurs a b -> occurs b c -> occurs a c.
Proof.
  intros (p1 & q1 & ->) (p2 & q2 & ->).
  exists (p2 +:+ p1), (q1 +:+ q2). by rewrite !append_assoc.
Qed.

(** Property X11.  A text in which a matching text occurs matches as well:
    nothing around a pattern can hide it. *)
Theorem match_survives_embedding (inner outer : string) :
  occurs inner outer ->
  containsRateLimitError inner = true ->
  containsRateLimitError outer = true.
Proof.
  intros Hocc Hin. apply containsRateLimitError_iff.
  apply containsRateLimitError_iff in Hin as (kw & Hkw & mid & Hmid & Heq).
  exists kw. split; [done|]. exists mid. split; [|done].
  by apply (occurs_trans mid inner outer).
Qed.

Lemma match_survives_embedding_witness :
  occurs "Quota Exceeded" "[error] Quota Exceeded for project 12"
  /\ containsRateLimitError "[error] Quota Exceeded for project 12" = true.
Proof.
  assert (H : occurs "Quota Exceeded" "[error] Quota Exceeded for project 12").
  { exists "[error] ", " for project 12". reflexivity. }
  split; [exact H|].
  exact (match_survives_embedding _ _ H eq_refl).
Defined.

End MatcherFacts.

Section LogDirectoryFacts.
Import Text Detector Extension Examples.

Lemma string_compare_refl (s : string) : String.compare s s = Eq.
Proof.
  induction s as [|c s IH]; [done|]. cbn.
  unfold Ascii.compare. by rewrite N.compare_refl.
Qed.

Lemma string_leb_refl (s : string) : String.leb s s = true.
Proof. unfold String.leb. by rewrite string_compare_refl. Qed.

Lemma string_leb_trans (a b c : string) :
  String.leb a b = true -> String.leb b c = true -> String.leb a c = true.
Proof.
  unfold String.leb. revert b c.
  induction a as [|x a IH]; intros [|y b] [|z c]; cbn; try done.
  unfold Ascii.compare.
  destruct (N.compare_spec (N_of_ascii x) (N_of_ascii y)),
           (N.compare_spec (N_of_ascii y) (N_of_ascii z)),
           (N.compare_spec (N_of_ascii x) (N_of_ascii z));
    try done; try lia.
  apply IH.
Qed.

Lemma insert_sorted_In (x y : string) (l : list string) :
  In y (insert_sorted x l) <-> y = x \/ In y l.
Proof.
  induction l as [|z l IH]; cbn.
  - split; [intros [->|[]]; by left|intros [->|[]]; by left].
  - destruct (String.leb x z); cbn; [intuition congruence|].
    rewrite IH. intuition congruence.
Qed.

Lemma sort_In (y : string) (l : list string) : In y (sort l) <-> In y l.
Proof.
  induction l as [|x l IH]; [done|]. cbn.
  rewrite insert_sorted_In, IH. intuition congruence.
Qed.

Lemma insert_sorted_sorted (x : string) (l : list string) :
  StronglySorted (fun a b => String.leb a b = true) l ->
  StronglySorted (fun a b => String.leb a b = true) (insert_sorted x l).
Proof.
  induction 1 as [|z l Hs IH Hz]; cbn; [repeat constructor|].
  destruct (String.leb x z) eqn:Hxz.
  - constructor; [by constructor|]. constructor; [done|].
    eapply Forall_impl; [exact Hz|]. intros t Ht.
    by apply (string_leb_trans x z t).
  - constructor; [done|]. apply Forall_forall. intros t Ht.
    apply list_elem_of_In, insert_sorted_In in Ht as [->|Ht].
    + by destruct (String.leb_total x z) as [H|H]; [congruence|].
    + rewrite Forall_forall in Hz. by apply Hz, list_elem_of_In.
Qed.

Lemma sort_sorted (l : list string) :
  StronglySorted (fun a b => String.leb a b = true) (sort l).
Proof.
  induction l as [|x l IH]; [constructor|]. by apply insert_sorted_sorted.
Qed.

Lemma sorted_last_greatest (l : list string) (m : string) :
  StronglySorted (fun a b => String.leb a b = true) (l ++ [m]) ->
  Forall (fun y => String.leb y m = true) l.
Proof.
  induction l as [|x l IH]; [constructor|]. cbn. intros H.
  apply StronglySorted_inv in H as [Hs Hx]. constructor; [|by apply IH].
  rewrite Forall_app in Hx. destruct Hx as [_ Hm]. by inversion Hm.
Qed.

(** The head of the sorted and reversed names is a greatest one. *)
Lemma newest_is_greatest (names : list string) (newest : string)
    (rest : list string) :
  rev (sort names) = newest :: rest ->
  In newest names
  /\ forall y, In y names -> String.leb y newest = true.
Proof.
  intros H. assert (Hs : sort names = rev rest ++ [newest]).
  { by rewrite <- (rev_involutive (sort names)), H. }
  split.
  - apply sort_In. rewrite Hs. apply in_or_app. right. by left.
  - intros y Hy. apply sort_In in Hy. rewrite Hs in Hy.
    pose proof (sort_sorted names) as Hsorted. rewrite Hs in Hsorted.
    apply sorted_last_greatest in Hsorted. rewrite Forall_forall in Hsorted.
    apply in_app_or in Hy as [Hy|[<-|[]]].
    + by apply Hsorted, list_elem_of_In.
    + apply string_leb_refl.
Qed.

Lemma find_by_name (entries : list DirEntry) (d : DirEntry) :
  NoDup (map entryName entries) -> In d entries ->
  List.find (fun e => String.eqb (entryName e) (entryName d)) entries = Some d.
Proof.
  induction entries as [|e entries IH]; [done|]. cbn.
  intros Hnd [->|Hin].
  - by rewrite String.eqb_refl.
  - apply NoDup_cons in Hnd as [Hnot Hnd].
    destruct (String.eqb_spec (entryName e) (entryName d)) as [Heq|_].
    + exfalso. apply Hnot. rewrite Heq. apply list_elem_of_In.
      by apply in_map.
    + by apply IH.
Qed.

(** Property X12.  With distinct entry names, the log that a cycle reads is
    the [main.log] of the directory whose name is greatest, whatever plain
    files lie beside it. *)
Theorem newest_log_directory (entries : list DirEntry) (d : DirEntry) :
  NoDup (map entryName entries) ->
  In d entries -> isDirectory d = true ->
  (forall e, In e entries -> isDirectory e = true ->
             String.leb (entryName e) (entryName d) = true) ->
  mainLog_of (Some entries) = main_log d.
Proof.
  intros Hnd Hin Hdir Hmax. unfold mainLog_of.
  set (names := map entryName (List.filter isDirectory entries)).
  assert (Hd : In (entryName d) names).
  { apply in_map. by apply filter_In. }
  destruct (rev (sort names)) as [|newest rest] eqn:Hrev.
  - apply sort_In in Hd. apply (f_equal (@rev string)) in Hrev.
    rewrite rev_involutive in Hrev. by rewrite Hrev in Hd.
  - destruct (newest_is_greatest names newest rest Hrev) as [Hnew Hge].
    apply in_map_iff in Hnew as (e & <- & He).
    apply filter_In in He as [He Hedir].
    assert (Heq : entryName e = entryName d).
    { apply String.leb_antisym; [by apply Hmax|by apply Hge]. }
    rewrite Heq, (find_by_name entries d Hnd Hin). done.
Qed.

Lemma newest_log_directory_witness :
  mainLog_of (logs_with "boot")
  = main_log {| entryName := "20240102T090000"; isDirectory := true;
                main_log := Some "boot" |}.
Proof.
  apply (newest_log_directory _
           {| entryName := "20240102T090000"; isDirectory := true;
              main_log := Some "boot" |}).
  - cbn. repeat (constructor; [rewrite !list_elem_of_In; cbn;
                                intros H; repeat destruct H as [H|H]; done|]).
    constructor.
  - cbn. tauto.
  - reflexivity.
  - intros e [<-|[<-|[<-|[]]]]; cbn; intros H; try done; vm_compute in H; done.
Defined.

End LogDirectoryFacts.

Section TailFacts.
Import Text Detector Extension Examples.

Lemma length_append (a b : string) :
  String.length (a +:+ b) = (String.length a + String.length b)%nat.
Proof.
  induction a as [|c a IH]; [done|]. rewrite append_cons. cbn. by rewrite IH.
Qed.

Lemma substring_whole (b : string) :
  String.substring 0 (String.length b) b = b.
Proof. induction b as [|c b IH]; [done|]. cbn. by rewrite IH. Qed.

Lemma substring_appended (a b : string) :
  String.substring (String.length a) (String.length b) (a +:+ b) = b.
Proof.
  induction a as [|c a IH]; [apply substring_whole|].
  rewrite append_cons. cbn. apply IH.
Qed.

(** Property X13.  When the cursor stands at the end of the old log and the
    log has grown by a non-empty text of at most [READ_LIMIT] bytes, the
    cycle reads exactly the appended text, scans it, and moves the cursor
    to the new end. *)
Theorem poll_reads_appended_text
    (logs : option (list DirEntry)) (old more : string) :
  mainLog_of logs = Some (old +:+ more) ->
  more <> EmptyString ->
  file_size more <= READ_LIMIT ->
  poll logs (file_size old) = (file_size (old +:+ more), Some more)
  /\ poll_detects logs (file_size old) = containsRateLimitError more.
Proof.
  intros Hlog Hmore Hlimit.
  assert (Hlen : file_size (old +:+ more) = file_size old + file_size more).
  { unfold file_size. rewrite length_append. lia. }
  assert (Hpos : 0 < file_size more).
  { unfold file_size. destruct more; [done|]. cbn. lia. }
  assert (Hpoll : poll logs (file_size old)
                  = (file_size (old +:+ more), Some more)).
  { rewrite (poll_grown _ _ _ Hlog) by lia. f_equal. f_equal.
    rewrite Hlen. replace (file_size old + file_size more - file_size old)
      with (file_size more) by lia.
    rewrite Z.min_l by done. unfold readSync, file_size.
    rewrite !Nat2Z.id. apply substring_appended. }
  split; [done|]. unfold poll_detects. by rewrite Hpoll.
Qed.

Lemma poll_reads_appended_text_witness :
  poll (logs_with ("boot ok" +:+ " HTTP 429 Too Many Requests"))
       (file_size "boot ok")
  = (file_size ("boot ok" +:+ " HTTP 429 Too Many Requests"),
     Some " HTTP 429 Too Many Requests")
  /\ poll_detects (logs_with ("boot ok" +:+ " HTTP 429 Too Many Requests"))
       (file_size "boot ok")
     = containsRateLimitError " HTTP 429 Too Many Requests".
Proof.
  apply (poll_reads_appended_text
           (logs_with ("boot ok" +:+ " HTTP 429 Too Many Requests"))
           "boot ok" " HTTP 429 Too Many Requests").
  - vm_compute. reflexivity.
  - discriminate.
  - vm_compute. discriminate.
Defined.

End TailFacts.

(** * Further properties of the command handlers *)

Section HandlerFacts.
Import Text Disk ProfileManager Detector Extension Examples Observed Plain.

















End HandlerFacts.

Section SlotFacts.
Import Text Disk ProfileManager Detector Extension Examples Observed Plain.









(** Property X20.  During the cooldown a detected rate limit does nothing:
    the handler and the diagnostics listener leave the extension as it
    was, and a log cycle only moves its cursor, so text scanned then is
    never reported. *)
Theorem detection_in_cooldown_is_silent
    (now : Z) (pick : option nat) (x : Ext)
    (messages : list string) (logs : option (list DirEntry)) :
  now - lastRateLimitAlert x < RATE_LIMIT_COOLDOWN ->
  handleRateLimitDetected now pick x = x
  /\ onDidChangeDiagnostics now messages pick x = x
  /\ logCheckInterval now logs pick x
     = {| world := world x; lastRateLimitAlert := lastRateLimitAlert x;
          lastLogSize := (poll logs (lastLogSize x)).1; shown := shown x |}.
Proof.
  intros Hcool.
  assert (Hh : forall y, lastRateLimitAlert y = lastRateLimitAlert x ->
                         handleRateLimitDetected now pick y = y).
  { intros y Hy. unfold handleRateLimitDetected.
    rewrite Hy, (cooldown_gate_closed _ _ Hcool). cbn. rewrite <- Hy.
    by destruct y. }
  split; [by apply Hh|]. split.
  - unfold onDidChangeDiagnostics. destruct (some _ _); [by apply Hh|done].
  - unfold logCheckInterval. destruct (poll logs (lastLogSize x)) as [last [text|]];
      [|done].
    destruct (containsRateLimitError text); [|done]. by apply Hh.
Qed.

Lemma detection_in_cooldown_is_silent_witness :
  handleRateLimitDetected 30000 (Some 0%nat) (started alice_and_bob)
  = started alice_and_bob.
Proof.
  assert (H : 30000 - lastRateLimitAlert (started alice_and_bob)
              < RATE_LIMIT_COOLDOWN) by (vm_compute; reflexivity).
  exact (proj1 (detection_in_cooldown_is_silent 30000 (Some 0%nat)
                  (started alice_and_bob) [] None H)).
Defined.

End SlotFacts.

Section PromptFacts.
Import Text Disk ProfileManager Detector Extension Examples Observed.

(** Property X21.  In the rate-limit prompt, pressing a button that reads
    Dismiss switches nothing, also when it is the button of a profile of
    that name. *)
Theorem prompt_never_loads_Dismiss (now : Z) (pick : option nat) (x : Ext) :
  showQuickPick (map Name (getProfiles (world x)) ++ ["Dismiss"]) pick
    = Some "Dismiss" ->
  world (handleRateLimitDetected now pick x) = world x.
Proof.
  intros Hpick. unfold handleRateLimitDetected.
  destruct (cooldown_gate now (lastRateLimitAlert x)) as [[|] last];
    cbn [negb world]; [|done].
  destruct (getProfiles (world x)); [done|]. cbn [world show].
  by rewrite Hpick.
Qed.

Lemma prompt_never_loads_Dismiss_witness :
  map Name (getProfiles dismiss_saved) = ["work"; "Dismiss"]
  /\ world (handleRateLimitDetected 1700000000000 (Some 1%nat)
              (started dismiss_saved))
     = dismiss_saved.
Proof.
  split; [vm_compute; reflexivity|].
  apply (prompt_never_loads_Dismiss 1700000000000 (Some 1%nat)
           (started dismiss_saved)).
  vm_compute. reflexivity.
Defined.

End PromptFacts.
